(** * Role router: the FastAPI endpoint group of [routes/role_router.py]

    The module exposes four request handlers over one entity (a role: a name
    and a hierarchy level).  Every handler delegates to the module-level
    collaborator [crud = DatabaseManager()] and maps what comes back (a value,
    a falsy value, an exception) to a return value or an [HTTPException].

    The embedding follows the source:
    - Python values are an inductive type [PyObj] with Python's truth test;
    - exceptions are described by what the handlers observe of them
      (whether [except Exception] matches, and [str(e)]);
    - the collaborator is a record of four state-passing methods over an
      abstract database state;
    - a handler is a state-passing computation over a [world] made of the
      collaborator's state and a log of the delegated calls;
    - the [@role_router.<verb>(..., response_model=...)] decorators are the
      route functions, which validate the request, run the handler and
      filter the result through the response model. *)

From stdpp Require Import gmap strings list fin_maps.
From Stdlib Require Import ZArith.

#[local] Set Warnings "-register-all".
#[local] Open Scope string_scope.
#[local] Open Scope Z_scope.
#[local] Open Scope list_scope.

(** ** Python values *)

(** The values that cross the boundary of this module: request bodies,
    what the collaborator returns, response contents.  An ORM entity is a
    [PyInstance]: a class name and the attributes of the object. *)
Inductive PyObj : Type :=
| PyNone
| PyBool (b : bool)
| PyInt (n : Z)
| PyStr (s : string)
| PyList (items : list PyObj)
| PyDict (entries : gmap string PyObj)
| PyInstance (cls : string) (attrs : gmap string PyObj).

(** Python's truth test, [bool(o)]: [None], [False], [0], the empty string,
    the empty list and the empty dict are falsy; an instance of a class that
    defines neither [__bool__] nor [__len__] is truthy. *)
Definition truthy (o : PyObj) : bool :=
  match o with
  | PyNone => false
  | PyBool b => b
  | PyInt n => negb (n =? 0)
  | PyStr s => negb (String.eqb s "")
  | PyList items => match items with [] => false | _ :: _ => true end
  | PyDict entries => negb (bool_decide (entries = ∅))
  | PyInstance _ _ => true
  end.

(** [getattr(o, name)] as the response model reads a field: a key of a dict,
    an attribute of an entity; the other values carry none of the fields. *)
Definition getter (o : PyObj) (name : string) : option PyObj :=
  match o with
  | PyDict entries => entries !! name
  | PyInstance _ attrs => attrs !! name
  | _ => None
  end.

(** ** Exceptions *)

(** An exception object raised by the collaborator, by what this module can
    observe of it: its class name, whether it is an instance of [Exception]
    (false for [KeyboardInterrupt], [SystemExit] and [GeneratorExit], which
    derive from [BaseException] only), and [str(e)]. *)
Record PyExc : Type := mkExc {
  exc_class : string;
  exc_is_Exception : bool;
  exc_str : string
}.

(** What leaves a handler when it does not return: the [HTTPException] this
    module raises (with its [__cause__] when raised [from e]), or an
    exception of the collaborator that no clause of the handler caught. *)
Inductive raised : Type :=
| HTTPException (status_code : Z) (detail : string) (cause : option PyExc)
| Unhandled (e : PyExc).

Inductive outcome (A : Type) : Type :=
| Return (a : A)
| Raise (r : raised).
Arguments Return {A} a.
Arguments Raise {A} r.

(** ** The persistence collaborator *)

Inductive crud_result : Type :=
| Returned (v : PyObj)
| Raised (e : PyExc).

(** Modelled from the spec: [db.db_manager.DatabaseManager], whose code is
    not among the sources of this module.  The spec gives its interface:
    [create_role(name, level) -> Role], [get_role(id) -> Role|empty],
    [get_role_by_name(name) -> Role|empty], [get_all_roles() -> sequence],
    each of which may raise an implementation-defined error.  A method takes
    the state of the database and gives a result and the next state. *)
Module DatabaseManager.
Record t (DB : Type) : Type := Build {
  create_role : string -> Z -> DB -> crud_result * DB;
  get_role : Z -> DB -> crud_result * DB;
  get_role_by_name : string -> DB -> crud_result * DB;
  get_all_roles : DB -> crud_result * DB
}.
Arguments Build {DB}.
Arguments create_role {DB}.
Arguments get_role {DB}.
Arguments get_role_by_name {DB}.
Arguments get_all_roles {DB}.
End DatabaseManager.

(** A delegated call, as recorded in the log of a run. *)
Inductive crud_call : Type :=
| CreateRole (role_name : string) (level : Z)
| GetRole (role_id : Z)
| GetRoleByName (role_name : string)
| GetAllRoles.

(** ** Request and response models *)

(** [class RoleCreate(BaseModel)]: [role_name: str], [level: int]. *)
Module RoleCreate.
Record t : Type := Build { role_name : string; level : Z }.
End RoleCreate.

(** [class RoleResponse(BaseModel)]: [id: int], [role_name: str],
    [level: int], with [orm_mode = True]. *)
Module RoleResponse.
Record t : Type := Build { id : Z; role_name : string; level : Z }.

(** The content of the response: the model as a dict of its fields. *)
Definition dict (r : t) : PyObj :=
  PyDict (<["id" := PyInt (id r)]>
          (<["role_name" := PyStr (role_name r)]>
           (<["level" := PyInt (level r)]> ∅))).
End RoleResponse.

Section Validation.
(** The coercions the schema library applies to a value that is not
    natively of the declared type (a numeric string for an [int] field, a
    number for a [str] field, ...).  They belong to the library; a value of
    the declared type is accepted as it is. *)
Variable lax_int : PyObj -> option Z.
Variable lax_str : PyObj -> option string.

Definition int_validator (v : PyObj) : option Z :=
  match v with
  | PyInt n => Some n
  | _ => lax_int v
  end.

Definition str_validator (v : PyObj) : option string :=
  match v with
  | PyStr s => Some s
  | _ => lax_str v
  end.

(** Parsing a request body into [RoleCreate]: the body is a JSON object,
    both fields are required, keys outside the model are ignored.  The
    declaration puts no constraint on the fields beyond their types. *)
Definition RoleCreate_validate (body : PyObj) : option RoleCreate.t :=
  match body with
  | PyDict entries =>
      role_name ← entries !! "role_name" ≫= str_validator;
      level ← entries !! "level" ≫= int_validator;
      Some (RoleCreate.Build role_name level)
  | _ => None
  end.

(** Building a [RoleResponse] from a returned value ([orm_mode]: the
    fields are read with [getter]); the three fields are required. *)
Definition RoleResponse_validate (v : PyObj) : option RoleResponse.t :=
  id ← getter v "id" ≫= int_validator;
  role_name ← getter v "role_name" ≫= str_validator;
  level ← getter v "level" ≫= int_validator;
  Some (RoleResponse.Build id role_name level).

(** [response_model=RoleResponse]. *)
Definition serialize_RoleResponse (v : PyObj) : option PyObj :=
  RoleResponse.dict <$> RoleResponse_validate v.

(** [response_model=List[RoleResponse]]: the value is a list and every
    item fits the model; the items keep their positions. *)
Definition serialize_List_RoleResponse (v : PyObj) : option PyObj :=
  match v with
  | PyList items => PyList <$> mapM serialize_RoleResponse items
  | _ => None
  end.
End Validation.

(** ** Handlers as state-passing computations *)

(** The world a handler runs in: the state of the collaborator's database
    and the log of the calls delegated so far.  The module has no other
    state: [role_router] and [crud] are bound once, when it is loaded. *)
Record world (DB : Type) : Type := World {
  db : DB;
  calls : list crud_call
}.
Arguments World {DB}.
Arguments db {DB}.
Arguments calls {DB}.

Definition endpoint (W A : Type) : Type := W -> outcome A * W.

Definition ret {W A} (a : A) : endpoint W A := fun w => (Return a, w).

Definition raise {W A} (r : raised) : endpoint W A := fun w => (Raise r, w).

Definition bind {W A B} (m : endpoint W A) (k : A -> endpoint W B)
    : endpoint W B :=
  fun w =>
    match m w with
    | (Return a, w') => k a w'
    | (Raise r, w') => (Raise r, w')
    end.

Notation "x <- m ;; k" := (bind m (fun x => k))
  (at level 100, m at next level, right associativity).

Section Handlers.
Context {DB : Type}.

(** [crud = DatabaseManager()] *)
Variable crud : DatabaseManager.t DB.

(** The method of [crud] a call stands for. *)
Definition perform (c : crud_call) : DB -> crud_result * DB :=
  match c with
  | CreateRole role_name level =>
      DatabaseManager.create_role crud role_name level
  | GetRole role_id => DatabaseManager.get_role crud role_id
  | GetRoleByName role_name => DatabaseManager.get_role_by_name crud role_name
  | GetAllRoles => DatabaseManager.get_all_roles crud
  end.

(** One delegated call: it runs on the database and is logged. *)
Definition delegate (c : crud_call) (w : world DB) : crud_result * world DB :=
  let '(r, d) := perform c (db w) in
  (r, World d (calls w ++ [c])).

(** A call outside any [try]: an exception of the collaborator leaves the
    handler as it is. *)
Definition call (c : crud_call) : endpoint (world DB) PyObj :=
  fun w =>
    match delegate c w with
    | (Returned v, w') => (Return v, w')
    | (Raised e, w') => (Raise (Unhandled e), w')
    end.

(** [try: return <call> except Exception as e: <handler e>].  The clause
    matches the instances of [Exception]; any other exception passes
    through it. *)
Definition try_return_except_Exception
    (c : crud_call) (handler : PyExc -> endpoint (world DB) PyObj)
    : endpoint (world DB) PyObj :=
  fun w =>
    match delegate c w with
    | (Returned v, w') => (Return v, w')
    | (Raised e, w') =>
        if exc_is_Exception e then handler e w'
        else (Raise (Unhandled e), w')
    end.

(** [def create_role(role: RoleCreate)] *)
Definition create_role (role : RoleCreate.t) : endpoint (world DB) PyObj :=
  try_return_except_Exception
    (CreateRole (RoleCreate.role_name role) (RoleCreate.level role))
    (fun e => raise (HTTPException 400 (exc_str e) (Some e))).

(** [def get_role(role_id: int)] *)
Definition get_role (role_id : Z) : endpoint (world DB) PyObj :=
  role <- call (GetRole role_id) ;;
  if negb (truthy role)
  then raise (HTTPException 404 "Role not found" None)
  else ret role.

(** [def get_role_by_name(role_name: str)] *)
Definition get_role_by_name (role_name : string) : endpoint (world DB) PyObj :=
  role <- call (GetRoleByName role_name) ;;
  if negb (truthy role)
  then raise (HTTPException 404 "Role not found" None)
  else ret role.

(** [def get_all_roles()] *)
Definition get_all_roles : endpoint (world DB) PyObj :=
  call GetAllRoles.
End Handlers.

(** ** Routes: the handlers behind their decorators *)

(** What the client receives. *)
Inductive response : Type :=
| OK (content : PyObj)
    (* the handler returned and the value fits the response model *)
| ErrorResponse (status_code : Z) (detail : string)
    (* an HTTPException: the status and a body [{"detail": detail}] *)
| RequestValidationError
    (* the request does not fit the declared parameters; no handler ran *)
| ResponseValidationError
    (* the handler returned a value that does not fit the response model *)
| ServerError (e : PyExc).
    (* an exception reached the hosting server *)

Definition respond (serialize : PyObj -> option PyObj) (o : outcome PyObj)
    : response :=
  match o with
  | Return v =>
      match serialize v with
      | Some content => OK content
      | None => ResponseValidationError
      end
  | Raise (HTTPException status_code detail _) =>
      ErrorResponse status_code detail
  | Raise (Unhandled e) => ServerError e
  end.

Section Routes.
Context {DB : Type}.
Variable lax_int : PyObj -> option Z.
Variable lax_str : PyObj -> option string.
Variable crud : DatabaseManager.t DB.

(** [@role_router.post("/", response_model=RoleResponse)] *)
Definition post_roles (body : PyObj) (w : world DB) : response * world DB :=
  match RoleCreate_validate lax_int lax_str body with
  | None => (RequestValidationError, w)
  | Some role =>
      let '(o, w') := create_role crud role w in
      (respond (serialize_RoleResponse lax_int lax_str) o, w')
  end.

(** [@role_router.get("/{role_id}", response_model=RoleResponse)] *)
Definition get_roles_by_id (role_id : Z) (w : world DB) : response * world DB :=
  let '(o, w') := get_role crud role_id w in
  (respond (serialize_RoleResponse lax_int lax_str) o, w').

(** [@role_router.get("/name/{role_name}", response_model=RoleResponse)] *)
Definition get_roles_by_name (role_name : string) (w : world DB)
    : response * world DB :=
  let '(o, w') := get_role_by_name crud role_name w in
  (respond (serialize_RoleResponse lax_int lax_str) o, w').

(** [@role_router.get("/", response_model=List[RoleResponse])] *)
Definition get_roles (w : world DB) : response * world DB :=
  let '(o, w') := get_all_roles crud w in
  (respond (serialize_List_RoleResponse lax_int lax_str) o, w').
End Routes.

(** ** An in-memory collaborator

    One [DatabaseManager] among many, over a list of rows, on which the
    handlers can be run on concrete requests; the properties below are
    proved for every [DatabaseManager.t].  Ids are assigned in sequence,
    names are unique, and a pending fault (a lost connection, an interrupt)
    makes every call raise it. *)
Module MemoryDB.
Record row : Type := Row { row_id : Z; row_name : string; row_level : Z }.

Record t : Type := Build { rows : list row; fault : option PyExc }.

Definition fresh : t := Build [] None.

(** The ORM entity of a row; the mapper's bookkeeping attribute comes
    with it. *)
Definition entity (r : row) : PyObj :=
  PyInstance "RoleHierarchy"
    (<["id" := PyInt (row_id r)]>
     (<["role_name" := PyStr (row_name r)]>
      (<["level" := PyInt (row_level r)]>
       (<["_sa_instance_state" := PyNone]> ∅)))).

Definition find (p : row -> bool) (d : t) : PyObj :=
  match List.find p (rows d) with
  | Some r => entity r
  | None => PyNone
  end.

Definition IntegrityError : PyExc :=
  mkExc "IntegrityError" true "UNIQUE constraint failed: roles.role_name".

Definition guarded (d : t) (k : crud_result * t) : crud_result * t :=
  match fault d with
  | Some e => (Raised e, d)
  | None => k
  end.

Definition insert (role_name : string) (level : Z) (d : t) : crud_result * t :=
  guarded d
    (if existsb (fun r => String.eqb (row_name r) role_name) (rows d)
     then (Raised IntegrityError, d)
     else
       let r := Row (Z.of_nat (length (rows d)) + 1) role_name level in
       (Returned (entity r), Build (rows d ++ [r]) None)).

Definition select_by_id (role_id : Z) (d : t) : crud_result * t :=
  guarded d (Returned (find (fun r => row_id r =? role_id) d), d).

Definition select_by_name (role_name : string) (d : t) : crud_result * t :=
  guarded d (Returned (find (fun r => String.eqb (row_name r) role_name) d), d).

Definition select_all (d : t) : crud_result * t :=
  guarded d (Returned (PyList (map entity (rows d))), d).

Definition crud : DatabaseManager.t t :=
  DatabaseManager.Build insert select_by_id select_by_name select_all.

Definition ConnectionError : PyExc :=
  mkExc "OperationalError" true "could not connect to server".

Definition KeyboardInterrupt : PyExc :=
  mkExc "KeyboardInterrupt" false "".

(** A database whose connection is lost, and one whose call is cut short
    by an interrupt. *)
Definition disconnected : t := Build [] (Some ConnectionError).
Definition interrupted : t := Build [] (Some KeyboardInterrupt).

(** The database after the role "admin" of level 1 was created in the
    empty one. *)
Definition admin : row := Row 1 "admin" 1.
Definition seeded : t := Build [admin] None.

(** No coercion: only values of the declared type pass a field. *)
Definition strict_int (v : PyObj) : option Z := None.
Definition strict_str (v : PyObj) : option string := None.

Definition start (d : t) : world t := World d [].
End MemoryDB.

(** ** Vocabulary of the statements *)

(** The JSON body [{"role_name": role_name, "level": level}] of a create
    request. *)
Definition create_body (role_name : string) (level : Z) : PyObj :=
  PyDict (<["role_name" := PyStr role_name]> (<["level" := PyInt level]> ∅)).

Definition role_fields : gset string := {[ "id"; "role_name"; "level" ]}.

(** A response content that is a role: a dict with exactly the three
    fields. *)
Definition role_body (content : PyObj) : Prop :=
  ∃ fields, content = PyDict fields ∧ dom fields = role_fields.

Section Vocabulary.
Context {DB : Type}.
Variable crud : DatabaseManager.t DB.

(** The handler [h] delegates the call [c] and nothing else: the log
    grows by [c] alone and the database is the one [c] leaves. *)
Definition single_call (h : endpoint (world DB) PyObj) (c : crud_call) : Prop :=
  ∀ w, calls (snd (h w)) = calls w ++ [c]
       ∧ db (snd (h w)) = snd (perform crud c (db w)).

(** The handler [h] keeps nothing between requests: what it answers and
    the database it leaves depend on the database alone. *)
Definition stateless (h : endpoint (world DB) PyObj) : Prop :=
  ∀ w1 w2, db w1 = db w2 →
           fst (h w1) = fst (h w2) ∧ db (snd (h w1)) = db (snd (h w2)).

(** The shape the two lookups share: a call, then the truth test of
    what it returned. *)
Definition found (c : crud_call) : endpoint (world DB) PyObj :=
  role <- call crud c ;;
  if negb (truthy role)
  then raise (HTTPException 404 "Role not found" None)
  else ret role.

(** The collaborator stores what it is given, for the create of
    [role_name] and [level] on the database [d]: the entity the create
    returns carries an integer id, and a lookup by that id right after
    gives a truthy entity with that id, that name and that level. *)
Definition stores_what_it_is_given
    (role_name : string) (level : Z) (d : DB) : Prop :=
  ∀ v d',
    DatabaseManager.create_role crud role_name level d = (Returned v, d') →
    ∃ i v' d'',
      getter v "id" = Some (PyInt i)
      ∧ DatabaseManager.get_role crud i d' = (Returned v', d'')
      ∧ truthy v' = true
      ∧ getter v' "id" = Some (PyInt i)
      ∧ getter v' "role_name" = Some (PyStr role_name)
      ∧ getter v' "level" = Some (PyInt level).
End Vocabulary.

(** ** The router

    [role_router = APIRouter(prefix="/roles", tags=["roles"])] holds the four
    routes the decorators register.  A request is taken once matched: the
    route it reaches, with its body or its path parameter. *)
Inductive request : Type :=
| POST_roles (body : PyObj)               (* POST /roles/ *)
| GET_roles_id (role_id : Z)              (* GET /roles/{role_id} *)
| GET_roles_name (role_name : string)     (* GET /roles/name/{role_name} *)
| GET_roles.                              (* GET /roles/ *)

Section Router.
Context {DB : Type}.
Variable lax_int : PyObj -> option Z.
Variable lax_str : PyObj -> option string.
Variable crud : DatabaseManager.t DB.

Definition role_router (req : request) (w : world DB) : response * world DB :=
  match req with
  | POST_roles body => post_roles lax_int lax_str crud body w
  | GET_roles_id role_id => get_roles_by_id lax_int lax_str crud role_id w
  | GET_roles_name role_name =>
      get_roles_by_name lax_int lax_str crud role_name w
  | GET_roles => get_roles lax_int lax_str crud w
  end.

(** The calls a request is expected to delegate: one, unless its body is
    rejected by the schema. *)
Definition delegated (req : request) : list crud_call :=
  match req with
  | POST_roles body =>
      match RoleCreate_validate lax_int lax_str body with
      | Some role =>
          [CreateRole (RoleCreate.role_name role) (RoleCreate.level role)]
      | None => []
      end
  | GET_roles_id role_id => [GetRole role_id]
  | GET_roles_name role_name => [GetRoleByName role_name]
  | GET_roles => [GetAllRoles]
  end.

(** The database after the calls [cs], made in order. *)
Definition replay (cs : list crud_call) (d : DB) : DB :=
  fold_left (fun d c => snd (perform crud c d)) cs d.
End Router.

(** A collaborator with nothing behind it: every method returns [None]. *)
Module NullDB.
Definition crud : DatabaseManager.t unit :=
  DatabaseManager.Build
    (fun _ _ d => (Returned PyNone, d))
    (fun _ d => (Returned PyNone, d))
    (fun _ d => (Returned PyNone, d))
    (fun d => (Returned PyNone, d)).

Definition start : world unit := World tt [].
End NullDB.

(** ** Requests as they arrive

    A path parameter arrives as a segment of the path and is converted to
    the type the handler declares before the handler runs: [role_id: int]
    for [/{role_id}], [role_name: str] for [/name/{role_name}].  A segment
    that is no integer is rejected, as a body that does not fit
    [RoleCreate] is. *)
Inductive http_request : Type :=
| Http_POST_roles (body : PyObj)             (* POST /roles/ *)
| Http_GET_roles_id (segment : string)       (* GET /roles/<segment> *)
| Http_GET_roles_name (segment : string)     (* GET /roles/name/<segment> *)
| Http_GET_roles.                            (* GET /roles/ *)

Section Dispatch.
Context {DB : Type}.
(** The conversion of a path segment to an [int], which belongs to the
    framework. *)
Variable path_int : string -> option Z.
Variable lax_int : PyObj -> option Z.
Variable lax_str : PyObj -> option string.
Variable crud : DatabaseManager.t DB.

Definition path_parameters (r : http_request) : option request :=
  match r with
  | Http_POST_roles body => Some (POST_roles body)
  | Http_GET_roles_id segment => GET_roles_id <$> path_int segment
  | Http_GET_roles_name segment => Some (GET_roles_name segment)
  | Http_GET_roles => Some GET_roles
  end.

Definition dispatch (r : http_request) (w : world DB) : response * world DB :=
  match path_parameters r with
  | Some req => role_router lax_int lax_str crud req w
  | None => (RequestValidationError, w)
  end.

(** Requests served one after the other, each on the world the previous
    one left. *)
Fixpoint serve_http (rs : list http_request) (w : world DB)
    : list response * world DB :=
  match rs with
  | [] => ([], w)
  | r :: rest =>
      let '(a, w1) := dispatch r w in
      let '(answers, w2) := serve_http rest w1 in
      (a :: answers, w2)
  end.

(** The calls a request is expected to delegate: those of the route it
    reaches, none when its path parameter is rejected. *)
Definition delegated_http (r : http_request) : list crud_call :=
  match path_parameters r with
  | Some req => delegated lax_int lax_str req
  | None => []
  end.
End Dispatch.

(** A conversion of path segments that accepts the plain decimal numerals,
    to run the router on concrete paths. *)
Module DecimalPath.
Fixpoint digits (s : string) (acc : Z) : option Z :=
  match s with
  | EmptyString => Some acc
  | String c rest =>
      let n := Z.of_nat (Ascii.nat_of_ascii c) - 48 in
      if (0 <=? n) && (n <=? 9) then digits rest (10 * acc + n) else None
  end.

Definition path_int (s : string) : option Z :=
  match s with
  | EmptyString => None
  | _ => digits s 0
  end.
End DecimalPath.

(** * Properties *)

(** ** How each handler runs *)

Section HandlerFacts.
Context {DB : Type}.
Variable crud : DatabaseManager.t DB.

Lemma delegate_eq c w :
  delegate crud c w
  = (fst (perform crud c (db w)),
     World (snd (perform crud c (db w))) (calls w ++ [c])).
Proof. unfold delegate. by destruct (perform crud c (db w)). Qed.

Lemma call_returned c w v d :
  perform crud c (db w) = (Returned v, d) →
  call crud c w = (Return v, World d (calls w ++ [c])).
Proof. intros E. unfold call. by rewrite delegate_eq, E. Qed.

Lemma call_raised c w e d :
  perform crud c (db w) = (Raised e, d) →
  call crud c w = (Raise (Unhandled e), World d (calls w ++ [c])).
Proof. intros E. unfold call. by rewrite delegate_eq, E. Qed.

Lemma call_world c w :
  snd (call crud c w) = World (snd (perform crud c (db w))) (calls w ++ [c]).
Proof.
  unfold call. rewrite delegate_eq.
  by destruct (perform crud c (db w)) as [[v|e] d].
Qed.

(** The three ways a create can end. *)
Lemma create_role_returned role w v d :
  perform crud
    (CreateRole (RoleCreate.role_name role) (RoleCreate.level role)) (db w)
    = (Returned v, d) →
  create_role crud role w
    = (Return v,
       World d (calls w ++ [CreateRole (RoleCreate.role_name role)
                                        (RoleCreate.level role)])).
Proof.
  intros E. unfold create_role, try_return_except_Exception.
  by rewrite delegate_eq, E.
Qed.

Lemma create_role_raised role w e d :
  perform crud
    (CreateRole (RoleCreate.role_name role) (RoleCreate.level role)) (db w)
    = (Raised e, d) →
  create_role crud role w
    = (if exc_is_Exception e
       then Raise (HTTPException 400 (exc_str e) (Some e))
       else Raise (Unhandled e),
       World d (calls w ++ [CreateRole (RoleCreate.role_name role)
                                        (RoleCreate.level role)])).
Proof.
  intros E. unfold create_role, try_return_except_Exception.
  rewrite delegate_eq, E. simpl. by destruct (exc_is_Exception e).
Qed.

Lemma create_role_world role w :
  snd (create_role crud role w)
  = World (snd (perform crud (CreateRole (RoleCreate.role_name role)
                                         (RoleCreate.level role)) (db w)))
          (calls w ++ [CreateRole (RoleCreate.role_name role)
                                  (RoleCreate.level role)]).
Proof.
  destruct (perform crud (CreateRole (RoleCreate.role_name role)
                                     (RoleCreate.level role)) (db w))
    as [[v|e] d] eqn:E.
  - by rewrite (create_role_returned _ _ _ _ E).
  - by rewrite (create_role_raised _ _ _ _ E).
Qed.

Lemma create_role_Return_inv role w v w' :
  create_role crud role w = (Return v, w') →
  perform crud
    (CreateRole (RoleCreate.role_name role) (RoleCreate.level role)) (db w)
    = (Returned v, db w')
  ∧ calls w' = calls w ++ [CreateRole (RoleCreate.role_name role)
                                       (RoleCreate.level role)].
Proof.
  intros H.
  destruct (perform crud (CreateRole (RoleCreate.role_name role)
                                     (RoleCreate.level role)) (db w))
    as [[v0|e] d] eqn:E.
  - rewrite (create_role_returned role w v0 d E) in H. by simplify_eq.
  - rewrite (create_role_raised role w e d E) in H.
    destruct (exc_is_Exception e); simplify_eq.
Qed.

(** The two lookups are one computation, up to the call they make. *)
Lemma get_role_found role_id :
  get_role crud role_id = found crud (GetRole role_id).
Proof. reflexivity. Qed.

Lemma get_role_by_name_found role_name :
  get_role_by_name crud role_name = found crud (GetRoleByName role_name).
Proof. reflexivity. Qed.

Lemma found_returned c w v d :
  perform crud c (db w) = (Returned v, d) →
  found crud c w
  = (if truthy v then Return v
     else Raise (HTTPException 404 "Role not found" None),
     World d (calls w ++ [c])).
Proof.
  intros E. unfold found, bind. rewrite (call_returned _ _ _ _ E).
  by destruct (truthy v).
Qed.

Lemma found_raised c w e d :
  perform crud c (db w) = (Raised e, d) →
  found crud c w = (Raise (Unhandled e), World d (calls w ++ [c])).
Proof. intros E. unfold found, bind. by rewrite (call_raised _ _ _ _ E). Qed.

Lemma found_world c w :
  snd (found crud c w) = World (snd (perform crud c (db w))) (calls w ++ [c]).
Proof.
  destruct (perform crud c (db w)) as [[v|e] d] eqn:E.
  - by rewrite (found_returned _ _ _ _ E).
  - by rewrite (found_raised _ _ _ _ E).
Qed.
End HandlerFacts.

(** ** The create handler *)

Section CreateRole.
Context {DB : Type}.
Variable crud : DatabaseManager.t DB.

(** C1 (amended): when the delegated create call raises an exception that
    is an instance of [Exception], whatever its kind, [create_role] fails
    with an [HTTPException] of status 400 whose detail is exactly [str(e)]
    (and whose cause is [e]), and the client receives that status and
    detail.  An exception that is not an instance of [Exception] passes
    through the [except Exception] clause and leaves the handler
    unchanged. *)
Theorem create_role_Exception_is_bad_request role w e d :
  DatabaseManager.create_role crud
    (RoleCreate.role_name role) (RoleCreate.level role) (db w) = (Raised e, d) →
  (exc_is_Exception e = true →
     fst (create_role crud role w)
       = Raise (HTTPException 400 (exc_str e) (Some e))
     ∧ ∀ serialize,
         respond serialize (fst (create_role crud role w))
         = ErrorResponse 400 (exc_str e))
  ∧ (exc_is_Exception e = false →
     fst (create_role crud role w) = Raise (Unhandled e)).
Proof.
  intros E.
  rewrite (create_role_raised crud role w e d E).
  split; intros ->; simpl; auto.
Qed.

(** C3: a create that succeeds has passed [role.role_name] and
    [role.level], unchanged, to the collaborator's create, in one call, and
    returns the very entity that call returned (hence with the id the
    collaborator assigned); conversely whatever entity the collaborator
    returns is what the handler returns. *)
Theorem create_role_passes_fields_returns_entity role w :
  (∀ v w',
     create_role crud role w = (Return v, w') →
     DatabaseManager.create_role crud
       (RoleCreate.role_name role) (RoleCreate.level role) (db w)
       = (Returned v, db w')
     ∧ calls w' = calls w ++ [CreateRole (RoleCreate.role_name role)
                                          (RoleCreate.level role)])
  ∧ (∀ v d,
       DatabaseManager.create_role crud
         (RoleCreate.role_name role) (RoleCreate.level role) (db w)
         = (Returned v, d) →
       fst (create_role crud role w) = Return v).
Proof.
  split.
  - intros v w' H. by apply (create_role_Return_inv crud role w v w').
  - intros v d E. by rewrite (create_role_returned crud role w v d E).
Qed.
End CreateRole.

(** ** The lookups and the listing *)

Section Lookups.
Context {DB : Type}.
Variable crud : DatabaseManager.t DB.

Lemma found_not_found_iff c w :
  fst (found crud c w) = Raise (HTTPException 404 "Role not found" None)
  ↔ ∃ v, fst (perform crud c (db w)) = Returned v ∧ truthy v = false.
Proof.
  destruct (perform crud c (db w)) as [[v|e] d] eqn:E; simpl.
  - rewrite (found_returned crud c w v d E). simpl.
    destruct (truthy v) eqn:T; split.
    + intros [=].
    + intros (v' & [= <-] & T'). congruence.
    + intros _. by exists v.
    + done.
  - rewrite (found_raised crud c w e d E). simpl. split.
    + intros [=].
    + intros (v' & [=] & _).
Qed.

Lemma found_truthy c w v :
  fst (perform crud c (db w)) = Returned v → truthy v = true →
  fst (found crud c w) = Return v.
Proof.
  destruct (perform crud c (db w)) as [r d] eqn:E. simpl. intros -> T.
  rewrite (found_returned crud c w v d E). simpl. by rewrite T.
Qed.

(** C2: [get_role] fails with the 404 [HTTPException] whose detail is
    exactly "Role not found" if and only if the collaborator's lookup
    returned a falsy value; when the lookup returned a truthy value the
    handler returns that value.  [get_role_by_name] has the same contract,
    keyed by name. *)
Theorem lookup_not_found_iff_falsy role_id role_name w :
  ((fst (get_role crud role_id w)
      = Raise (HTTPException 404 "Role not found" None)
    ↔ ∃ v, fst (DatabaseManager.get_role crud role_id (db w)) = Returned v
           ∧ truthy v = false)
   ∧ ∀ v, fst (DatabaseManager.get_role crud role_id (db w)) = Returned v →
          truthy v = true →
          fst (get_role crud role_id w) = Return v)
  ∧ ((fst (get_role_by_name crud role_name w)
        = Raise (HTTPException 404 "Role not found" None)
      ↔ ∃ v, fst (DatabaseManager.get_role_by_name crud role_name (db w))
               = Returned v
             ∧ truthy v = false)
     ∧ ∀ v, fst (DatabaseManager.get_role_by_name crud role_name (db w))
              = Returned v →
            truthy v = true →
            fst (get_role_by_name crud role_name w) = Return v).
Proof.
  rewrite get_role_found, get_role_by_name_found.
  repeat split.
  - apply (found_not_found_iff (GetRole role_id) w).
  - apply (found_not_found_iff (GetRole role_id) w).
  - apply (found_truthy (GetRole role_id) w).
  - apply (found_not_found_iff (GetRoleByName role_name) w).
  - apply (found_not_found_iff (GetRoleByName role_name) w).
  - apply (found_truthy (GetRoleByName role_name) w).
Qed.

(** C5: an exception the collaborator raises during [get_role],
    [get_role_by_name] or [get_all_roles] is not caught: it leaves the
    handler as the same exception object, whatever its kind, and reaches
    the hosting server, which answers with its own error response. *)
Theorem lookup_and_list_exceptions_propagate w e d :
  (∀ role_id,
     DatabaseManager.get_role crud role_id (db w) = (Raised e, d) →
     get_role crud role_id w
     = (Raise (Unhandled e), World d (calls w ++ [GetRole role_id])))
  ∧ (∀ role_name,
       DatabaseManager.get_role_by_name crud role_name (db w) = (Raised e, d) →
       get_role_by_name crud role_name w
       = (Raise (Unhandled e), World d (calls w ++ [GetRoleByName role_name])))
  ∧ (DatabaseManager.get_all_roles crud (db w) = (Raised e, d) →
     get_all_roles crud w
     = (Raise (Unhandled e), World d (calls w ++ [GetAllRoles])))
  ∧ (∀ serialize, respond serialize (Raise (Unhandled e)) = ServerError e).
Proof.
  repeat split.
  - intros role_id E. rewrite get_role_found.
    by apply found_raised.
  - intros role_name E. rewrite get_role_by_name_found.
    by apply found_raised.
  - intros E. by apply call_raised.
Qed.
End Lookups.

(** ** Schema validation and the response models *)

Section Models.
Variable lax_int : PyObj -> option Z.
Variable lax_str : PyObj -> option string.

Lemma RoleCreate_validate_native entries role_name level :
  entries !! "role_name" = Some (PyStr role_name) →
  entries !! "level" = Some (PyInt level) →
  RoleCreate_validate lax_int lax_str (PyDict entries)
  = Some (RoleCreate.Build role_name level).
Proof. intros Hn Hl. unfold RoleCreate_validate. by rewrite Hn, Hl. Qed.

Lemma RoleCreate_validate_create_body role_name level :
  RoleCreate_validate lax_int lax_str (create_body role_name level)
  = Some (RoleCreate.Build role_name level).
Proof. by apply RoleCreate_validate_native. Qed.

Lemma RoleCreate_validate_missing entries :
  entries !! "role_name" = None ∨ entries !! "level" = None →
  RoleCreate_validate lax_int lax_str (PyDict entries) = None.
Proof.
  intros [H|H]; unfold RoleCreate_validate; rewrite H; simpl; [done|].
  by destruct (entries !! "role_name" ≫= str_validator lax_str).
Qed.

Lemma dict_role_body r : role_body (RoleResponse.dict r).
Proof.
  eexists. split; [reflexivity|].
  rewrite !dom_insert_L, dom_empty_L. unfold role_fields. set_solver.
Qed.

Lemma serialize_RoleResponse_role_body v content :
  serialize_RoleResponse lax_int lax_str v = Some content → role_body content.
Proof.
  unfold serialize_RoleResponse. intros H.
  apply fmap_Some in H as (r & _ & ->). apply dict_role_body.
Qed.

(** The response model reads the three fields and nothing else. *)
Lemma RoleResponse_validate_ext v1 v2 :
  (∀ f, f ∈ role_fields → getter v1 f = getter v2 f) →
  RoleResponse_validate lax_int lax_str v1
  = RoleResponse_validate lax_int lax_str v2.
Proof.
  intros H. unfold RoleResponse_validate.
  rewrite (H "id"), (H "role_name"), (H "level");
    [done | unfold role_fields; set_solver ..].
Qed.

Lemma RoleResponse_validate_missing v f :
  f ∈ role_fields → getter v f = None →
  RoleResponse_validate lax_int lax_str v = None.
Proof.
  unfold role_fields, RoleResponse_validate. intros Hf H.
  rewrite !elem_of_union, !elem_of_singleton in Hf.
  destruct Hf as [[-> | ->] | ->]; rewrite H; simpl.
  - done.
  - by destruct (getter v "id" ≫= int_validator lax_int).
  - destruct (getter v "id" ≫= int_validator lax_int); [simpl|done].
    by destruct (getter v "role_name" ≫= str_validator lax_str).
Qed.

Lemma serialize_List_Forall2 items content :
  serialize_List_RoleResponse lax_int lax_str (PyList items) = Some content →
  ∃ bodies,
    content = PyList bodies
    ∧ Forall2 (λ item body,
                 serialize_RoleResponse lax_int lax_str item = Some body)
              items bodies.
Proof.
  simpl. intros H. apply fmap_Some in H as (bodies & H & ->).
  exists bodies. split; [done|]. by apply mapM_Some.
Qed.
End Models.

(** ** The routes *)

Section RouteFacts.
Context {DB : Type}.
Variable lax_int : PyObj -> option Z.
Variable lax_str : PyObj -> option string.
Variable crud : DatabaseManager.t DB.

Lemma respond_OK serialize o content :
  respond serialize o = OK content →
  ∃ v, o = Return v ∧ serialize v = Some content.
Proof.
  destruct o as [v|[status_code detail cause|e]]; simpl; [|done..].
  destruct (serialize v) as [c|] eqn:E; [|done].
  intros [= ->]. by exists v.
Qed.

Lemma respond_not_RequestValidationError serialize o :
  respond serialize o ≠ RequestValidationError.
Proof.
  destruct o as [v|[status_code detail cause|e]]; simpl; [|done..].
  by destruct (serialize v).
Qed.

Lemma post_roles_valid body role w :
  RoleCreate_validate lax_int lax_str body = Some role →
  post_roles lax_int lax_str crud body w
  = (respond (serialize_RoleResponse lax_int lax_str)
       (fst (create_role crud role w)),
     snd (create_role crud role w)).
Proof.
  intros E. unfold post_roles. rewrite E.
  by destruct (create_role crud role w).
Qed.

Lemma post_roles_invalid body w :
  RoleCreate_validate lax_int lax_str body = None →
  post_roles lax_int lax_str crud body w = (RequestValidationError, w).
Proof. intros E. unfold post_roles. by rewrite E. Qed.

Lemma get_roles_by_id_eq role_id w :
  get_roles_by_id lax_int lax_str crud role_id w
  = (respond (serialize_RoleResponse lax_int lax_str)
       (fst (get_role crud role_id w)),
     snd (get_role crud role_id w)).
Proof. unfold get_roles_by_id. by destruct (get_role crud role_id w). Qed.

Lemma get_roles_by_name_eq role_name w :
  get_roles_by_name lax_int lax_str crud role_name w
  = (respond (serialize_RoleResponse lax_int lax_str)
       (fst (get_role_by_name crud role_name w)),
     snd (get_role_by_name crud role_name w)).
Proof.
  unfold get_roles_by_name. by destruct (get_role_by_name crud role_name w).
Qed.

Lemma get_roles_eq w :
  get_roles lax_int lax_str crud w
  = (respond (serialize_List_RoleResponse lax_int lax_str)
       (fst (get_all_roles crud w)),
     snd (get_all_roles crud w)).
Proof. unfold get_roles. by destruct (get_all_roles crud w). Qed.

Lemma post_roles_calls role_name level w :
  calls (snd (post_roles lax_int lax_str crud (create_body role_name level) w))
  = calls w ++ [CreateRole role_name level].
Proof.
  rewrite (post_roles_valid _ _ _
             (RoleCreate_validate_create_body lax_int lax_str role_name level)).
  simpl. by rewrite create_role_world.
Qed.
End RouteFacts.

Section RouteProperties.
Context {DB : Type}.
Variable lax_int : PyObj -> option Z.
Variable lax_str : PyObj -> option string.
Variable crud : DatabaseManager.t DB.

(** C6 (amended): schema validation, which runs before [create_role],
    requires [role_name] to be present as a string and [level] as an
    integer, and nothing more.  A body with a string [role_name], the
    empty string included, and an integer [level] is accepted and
    delegated to the collaborator with both values unchanged; a body that
    does not fit the schema, in particular one without [role_name], is
    rejected and nothing is delegated. *)
Theorem post_roles_schema_requires_presence_only w :
  (∀ entries role_name level,
     entries !! "role_name" = Some (PyStr role_name) →
     entries !! "level" = Some (PyInt level) →
     fst (post_roles lax_int lax_str crud (PyDict entries) w)
       ≠ RequestValidationError
     ∧ calls (snd (post_roles lax_int lax_str crud (PyDict entries) w))
       = calls w ++ [CreateRole role_name level])
  ∧ (∀ body,
       RoleCreate_validate lax_int lax_str body = None →
       post_roles lax_int lax_str crud body w = (RequestValidationError, w))
  ∧ (∀ entries,
       entries !! "role_name" = None →
       post_roles lax_int lax_str crud (PyDict entries) w
       = (RequestValidationError, w)).
Proof.
  split; [|split].
  - intros entries role_name level Hn Hl.
    rewrite (post_roles_valid _ _ _ _ _ w
               (RoleCreate_validate_native lax_int lax_str _ _ _ Hn Hl)).
    simpl. split.
    + apply respond_not_RequestValidationError.
    + by rewrite create_role_world.
  - intros body. apply post_roles_invalid.
  - intros entries H. apply post_roles_invalid.
    apply RoleCreate_validate_missing. by left.
Qed.

(** C7: [get_all_roles] returns exactly the value the collaborator's
    list-all returned, after that one call.  Through the response model a
    successful listing has one body per role of the collaborator's list,
    at the same position (nothing dropped, added or moved), and the empty
    list is answered by the empty list. *)
Theorem get_all_roles_returns_collaborator_sequence w :
  (∀ v d,
     DatabaseManager.get_all_roles crud (db w) = (Returned v, d) →
     get_all_roles crud w = (Return v, World d (calls w ++ [GetAllRoles])))
  ∧ (∀ items d content,
       DatabaseManager.get_all_roles crud (db w)
         = (Returned (PyList items), d) →
       fst (get_roles lax_int lax_str crud w) = OK content →
       ∃ bodies,
         content = PyList bodies
         ∧ Forall2 (λ item body,
                      serialize_RoleResponse lax_int lax_str item = Some body)
                   items bodies)
  ∧ (∀ d,
       DatabaseManager.get_all_roles crud (db w) = (Returned (PyList []), d) →
       fst (get_roles lax_int lax_str crud w) = OK (PyList [])).
Proof.
  split; [|split].
  - intros v d E. by apply call_returned.
  - intros items d content E H.
    rewrite get_roles_eq in H. simpl in H.
    unfold get_all_roles in H.
    rewrite (call_returned crud GetAllRoles w _ d E) in H.
    apply respond_OK in H as (v & [= <-] & H).
    by apply serialize_List_Forall2.
  - intros d E. rewrite get_roles_eq. simpl.
    unfold get_all_roles.
    by rewrite (call_returned crud GetAllRoles w _ d E).
Qed.

(** C8: every integer [level], zero and the negative ones included,
    passes the schema as it is, and [create_role] forwards it unchanged,
    with the name, to the collaborator's create, whatever the database
    holds: the handler's outcome is the one of
    [crud.create_role(role_name, level)] on the current database (its value
    returned as it is, its exception mapped), the database it leaves is the
    one that call leaves, and the log grows by that call alone.  No range
    check and no uniqueness check is made here: the request never fails
    before the call, and the same request sent twice calls the collaborator
    twice, the second time on the database the first call left. *)
Theorem create_role_forwards_any_level role_name level w :
  RoleCreate_validate lax_int lax_str (create_body role_name level)
    = Some (RoleCreate.Build role_name level)
  ∧ create_role crud (RoleCreate.Build role_name level) w
    = (match fst (DatabaseManager.create_role crud role_name level (db w)) with
       | Returned v => Return v
       | Raised e =>
           if exc_is_Exception e
           then Raise (HTTPException 400 (exc_str e) (Some e))
           else Raise (Unhandled e)
       end,
       World (snd (DatabaseManager.create_role crud role_name level (db w)))
             (calls w ++ [CreateRole role_name level]))
  ∧ post_roles lax_int lax_str crud (create_body role_name level) w
    = (respond (serialize_RoleResponse lax_int lax_str)
         (fst (create_role crud (RoleCreate.Build role_name level) w)),
       World (snd (DatabaseManager.create_role crud role_name level (db w)))
             (calls w ++ [CreateRole role_name level]))
  ∧ snd (post_roles lax_int lax_str crud (create_body role_name level)
           (snd (post_roles lax_int lax_str crud
                   (create_body role_name level) w)))
    = World (snd (DatabaseManager.create_role crud role_name level
                    (snd (DatabaseManager.create_role crud role_name level
                            (db w)))))
            (calls w ++ [CreateRole role_name level;
                         CreateRole role_name level]).
Proof.
  assert (∀ w0,
            post_roles lax_int lax_str crud (create_body role_name level) w0
            = (respond (serialize_RoleResponse lax_int lax_str)
                 (fst (create_role crud (RoleCreate.Build role_name level) w0)),
               World (snd (DatabaseManager.create_role crud role_name level
                             (db w0)))
                     (calls w0 ++ [CreateRole role_name level]))) as Hpost.
  { intros w0.
    rewrite (post_roles_valid _ _ _ _ _ w0
               (RoleCreate_validate_create_body lax_int lax_str
                  role_name level)).
    by rewrite create_role_world. }
  split; [|split; [|split]].
  - apply RoleCreate_validate_create_body.
  - destruct (DatabaseManager.create_role crud role_name level (db w))
      as [[v|e] d] eqn:E.
    + by rewrite (create_role_returned crud
                    (RoleCreate.Build role_name level) w v d E).
    + rewrite (create_role_raised crud
                 (RoleCreate.Build role_name level) w e d E).
      simpl. by destruct (exc_is_Exception e).
  - apply Hpost.
  - rewrite !Hpost. simpl. by rewrite <- app_assoc.
Qed.

(** C10: a successful response of the create route and of the two lookup
    routes is a dict with exactly the fields [id], [role_name] and
    [level], and a successful listing is a list of such dicts.  An
    attribute of the returned entity outside these three does not reach
    the response, and a returned value that lacks one of the three (alone
    or as an item of the listing) is not answered as a success. *)
Theorem responses_carry_exactly_the_role_fields :
  (∀ body role_id role_name w content,
     fst (post_roles lax_int lax_str crud body w) = OK content
     ∨ fst (get_roles_by_id lax_int lax_str crud role_id w) = OK content
     ∨ fst (get_roles_by_name lax_int lax_str crud role_name w) = OK content →
     role_body content)
  ∧ (∀ w content,
       fst (get_roles lax_int lax_str crud w) = OK content →
       ∃ bodies, content = PyList bodies ∧ Forall role_body bodies)
  ∧ (∀ cls attrs name x,
       name ∉ role_fields →
       serialize_RoleResponse lax_int lax_str
         (PyInstance cls (<[name := x]> attrs))
       = serialize_RoleResponse lax_int lax_str (PyInstance cls attrs))
  ∧ (∀ v f,
       f ∈ role_fields → getter v f = None →
       respond (serialize_RoleResponse lax_int lax_str) (Return v)
       = ResponseValidationError)
  ∧ (∀ items item f,
       item ∈ items → f ∈ role_fields → getter item f = None →
       respond (serialize_List_RoleResponse lax_int lax_str)
               (Return (PyList items))
       = ResponseValidationError).
Proof.
  split; [|split; [|split; [|split]]].
  - intros body role_id role_name w content [H|[H|H]].
    + unfold post_roles in H.
      destruct (RoleCreate_validate lax_int lax_str body) as [role|];
        [|done].
      destruct (create_role crud role w) as [o w']. simpl in H.
      apply respond_OK in H as (v & _ & H).
      by eapply serialize_RoleResponse_role_body.
    + rewrite get_roles_by_id_eq in H. simpl in H.
      apply respond_OK in H as (v & _ & H).
      by eapply serialize_RoleResponse_role_body.
    + rewrite get_roles_by_name_eq in H. simpl in H.
      apply respond_OK in H as (v & _ & H).
      by eapply serialize_RoleResponse_role_body.
  - intros w content H. rewrite get_roles_eq in H. simpl in H.
    apply respond_OK in H as (v & _ & H).
    destruct v as [| | | |items| |]; try done.
    apply serialize_List_Forall2 in H as (bodies & -> & H).
    exists bodies. split; [done|].
    induction H as [|item body items bodies Hb _ IH]; constructor; [|done].
    by eapply serialize_RoleResponse_role_body.
  - intros cls attrs name x Hname. unfold serialize_RoleResponse.
    f_equal. apply RoleResponse_validate_ext. intros f Hf. simpl.
    apply lookup_insert_ne. by intros ->.
  - intros v f Hf H. simpl. unfold serialize_RoleResponse.
    by rewrite (RoleResponse_validate_missing lax_int lax_str v f Hf H).
  - intros items item f Hin Hf H. simpl.
    assert (mapM (serialize_RoleResponse lax_int lax_str) items = None)
      as ->; [|done].
    apply mapM_None, Exists_exists. exists item. split; [done|].
    unfold serialize_RoleResponse.
    by rewrite (RoleResponse_validate_missing lax_int lax_str item f Hf H).
Qed.

(** C4: for every role name and level, when the collaborator stores what
    it is given, a create that succeeds followed by a lookup by the
    returned id gives a role with the name and the level of the create:
    at the handlers, on the entities, and at the routes, on the response
    bodies. *)
Theorem create_then_get_round_trip role_name level w :
  stores_what_it_is_given crud role_name level (db w) →
  (∀ v w',
     create_role crud (RoleCreate.Build role_name level) w = (Return v, w') →
     ∃ i v',
       getter v "id" = Some (PyInt i)
       ∧ fst (get_role crud i w') = Return v'
       ∧ getter v' "role_name" = Some (PyStr role_name)
       ∧ getter v' "level" = Some (PyInt level))
  ∧ (∀ content w',
       post_roles lax_int lax_str crud (create_body role_name level) w
         = (OK content, w') →
       ∃ i,
         getter content "id" = Some (PyInt i)
         ∧ fst (get_roles_by_id lax_int lax_str crud i w')
           = OK (RoleResponse.dict (RoleResponse.Build i role_name level))).
Proof.
  intros Hstore.
  assert (∀ v w',
            create_role crud (RoleCreate.Build role_name level) w
              = (Return v, w') →
            ∃ i v',
              getter v "id" = Some (PyInt i)
              ∧ fst (get_role crud i w') = Return v'
              ∧ getter v' "id" = Some (PyInt i)
              ∧ getter v' "role_name" = Some (PyStr role_name)
              ∧ getter v' "level" = Some (PyInt level)) as Hhandler.
  { intros v w' H.
    destruct (create_role_Return_inv crud _ w v w' H) as [E _]. simpl in E.
    destruct (Hstore v (db w') E)
      as (i & v' & d'' & Hid & Eg & T & Hi & Hn & Hl).
    exists i, v'. repeat split; try done.
    rewrite get_role_found.
    rewrite (found_returned crud (GetRole i) w' v' d'' Eg). simpl.
    by rewrite T. }
  split.
  - intros v w' H.
    destruct (Hhandler v w' H) as (i & v' & ? & ? & ? & ? & ?).
    by exists i, v'.
  - intros content w' H.
    rewrite (post_roles_valid _ _ _ _ _ w
               (RoleCreate_validate_create_body lax_int lax_str
                  role_name level))
      in H.
    destruct (create_role crud (RoleCreate.Build role_name level) w)
      as [o w1] eqn:Ec.
    simpl in H. injection H as H <-.
    apply respond_OK in H as (v & -> & H).
    destruct (Hhandler v w1 eq_refl) as (i & v' & Hid & Eg & Hi & Hn & Hl).
    exists i. split.
    + unfold serialize_RoleResponse, RoleResponse_validate in H.
      rewrite Hid in H. simpl in H.
      destruct (getter v "role_name" ≫= str_validator lax_str) as [n|];
        [simpl in H|done].
      destruct (getter v "level" ≫= int_validator lax_int) as [l|];
        [simpl in H|done].
      injection H as <-. simpl. apply lookup_insert_eq.
    + rewrite get_roles_by_id_eq. simpl. rewrite Eg. simpl.
      unfold serialize_RoleResponse, RoleResponse_validate.
      by rewrite Hi, Hn, Hl.
Qed.
End RouteProperties.

(** ** One call per request, no state of its own *)

Section Frame.
Context {DB : Type}.
Variable crud : DatabaseManager.t DB.

Lemma found_single_call c : single_call crud (found crud c) c.
Proof. intros w. by rewrite found_world. Qed.

Lemma found_stateless c : stateless (found crud c).
Proof.
  intros [d l1] [d' l2]. simpl. intros <-.
  destruct (perform crud c d) as [[v|e] d1] eqn:E.
  - by rewrite (found_returned crud c (World d l1) v d1 E),
      (found_returned crud c (World d l2) v d1 E).
  - by rewrite (found_raised crud c (World d l1) e d1 E),
      (found_raised crud c (World d l2) e d1 E).
Qed.

(** C9: each of the four handlers delegates exactly one call to the
    collaborator per request (the log grows by that call alone, so there
    is no retry), leaves the database as that call left it, and keeps no
    state of its own: its answer and the database it leaves depend on the
    database alone. *)
Theorem handlers_single_call_stateless role role_id role_name :
  (single_call crud (create_role crud role)
     (CreateRole (RoleCreate.role_name role) (RoleCreate.level role))
   ∧ single_call crud (get_role crud role_id) (GetRole role_id)
   ∧ single_call crud (get_role_by_name crud role_name)
       (GetRoleByName role_name)
   ∧ single_call crud (get_all_roles crud) GetAllRoles)
  ∧ (stateless (create_role crud role)
     ∧ stateless (get_role crud role_id)
     ∧ stateless (get_role_by_name crud role_name)
     ∧ stateless (get_all_roles crud)).
Proof.
  split; repeat split.
  - by rewrite create_role_world.
  - by rewrite create_role_world.
  - rewrite get_role_found. apply found_single_call.
  - rewrite get_role_found. apply found_single_call.
  - rewrite get_role_by_name_found. apply found_single_call.
  - rewrite get_role_by_name_found. apply found_single_call.
  - unfold get_all_roles. by rewrite call_world.
  - unfold get_all_roles. by rewrite call_world.
  - destruct w1 as [d l1], w2 as [d' l2]. simpl in *. subst d'.
    destruct (perform crud (CreateRole (RoleCreate.role_name role)
                                       (RoleCreate.level role)) d)
      as [[v|e] d1] eqn:E.
    + by rewrite (create_role_returned crud role (World d l1) v d1 E),
        (create_role_returned crud role (World d l2) v d1 E).
    + by rewrite (create_role_raised crud role (World d l1) e d1 E),
        (create_role_raised crud role (World d l2) e d1 E).
  - rewrite !create_role_world. simpl. by rewrite H.
  - rewrite get_role_found. by apply found_stateless.
  - rewrite get_role_found. by apply found_stateless.
  - rewrite get_role_by_name_found. by apply found_stateless.
  - rewrite get_role_by_name_found. by apply found_stateless.
  - destruct w1 as [d l1], w2 as [d' l2]. simpl in *. subst d'.
    unfold get_all_roles.
    destruct (perform crud GetAllRoles d) as [[v|e] d1] eqn:E.
    + by rewrite (call_returned crud GetAllRoles (World d l1) v d1 E),
        (call_returned crud GetAllRoles (World d l2) v d1 E).
    + by rewrite (call_raised crud GetAllRoles (World d l1) e d1 E),
        (call_raised crud GetAllRoles (World d l2) e d1 E).
  - unfold get_all_roles. rewrite !call_world. simpl. by rewrite H.
Qed.
End Frame.

(** ** What an outcome tells about the collaborator *)

Section Outcomes.
Context {DB : Type}.
Variable lax_int : PyObj -> option Z.
Variable lax_str : PyObj -> option string.
Variable crud : DatabaseManager.t DB.


Lemma create_role_outcomes role w :
  (∀ status_code detail cause,
     fst (create_role crud role w)
       = Raise (HTTPException status_code detail cause) →
     ∃ e,
       fst (perform crud (CreateRole (RoleCreate.role_name role)
                                     (RoleCreate.level role)) (db w))
         = Raised e
       ∧ exc_is_Exception e = true
       ∧ status_code = 400 ∧ detail = exc_str e ∧ cause = Some e)
  ∧ (∀ e,
       fst (create_role crud role w) = Raise (Unhandled e) →
       fst (perform crud (CreateRole (RoleCreate.role_name role)
                                     (RoleCreate.level role)) (db w))
         = Raised e
       ∧ exc_is_Exception e = false).
Proof.
  destruct (perform crud (CreateRole (RoleCreate.role_name role)
                                     (RoleCreate.level role)) (db w))
    as [[v|e] d] eqn:E.
  - rewrite (create_role_returned crud role w v d E). simpl.
    split; intros; simplify_eq.
  - rewrite (create_role_raised crud role w e d E). simpl.
    destruct (exc_is_Exception e) eqn:X; split; intros; simplify_eq.
    + by exists e.
    + done.
Qed.

(** X1: a failure of [create_role] tells what the collaborator did.  An
    [HTTPException] out of it always has status 400, the text of an
    [Exception] the collaborator's create raised as detail and that
    exception as cause; an exception that leaves it unhandled is one the
    create raised and that is no instance of [Exception].  So the handler
    never answers 404 and never fails when the collaborator returned. *)
Theorem create_role_failure_inv role w :
  (∀ status_code detail cause,
     fst (create_role crud role w)
       = Raise (HTTPException status_code detail cause) →
     ∃ e,
       fst (DatabaseManager.create_role crud
              (RoleCreate.role_name role) (RoleCreate.level role) (db w))
         = Raised e
       ∧ exc_is_Exception e = true
       ∧ status_code = 400 ∧ detail = exc_str e ∧ cause = Some e)
  ∧ (∀ e,
       fst (create_role crud role w) = Raise (Unhandled e) →
       fst (DatabaseManager.create_role crud
              (RoleCreate.role_name role) (RoleCreate.level role) (db w))
         = Raised e
       ∧ exc_is_Exception e = false).
Proof.
  destruct (DatabaseManager.create_role crud
              (RoleCreate.role_name role) (RoleCreate.level role) (db w))
    as [[v|e] d] eqn:E.
  - rewrite (create_role_returned crud role w v d E). simpl.
    split; intros; simplify_eq.
  - rewrite (create_role_raised crud role w e d E). simpl.
    destruct (exc_is_Exception e) eqn:X; split; intros; simplify_eq.
    + by exists e.
    + done.
Qed.




(** X4: what becomes of a [None] the collaborator returns.  From a lookup
    it is answered 404 "Role not found"; from the create and from the
    listing, which do not test their result, it is returned as it is and
    fails the response model: the client gets neither a success nor an
    error response of this module. *)
Theorem None_from_the_collaborator w d :
  (∀ role_name level,
     DatabaseManager.create_role crud role_name level (db w)
       = (Returned PyNone, d) →
     create_role crud (RoleCreate.Build role_name level) w
       = (Return PyNone, World d (calls w ++ [CreateRole role_name level]))
     ∧ fst (post_roles lax_int lax_str crud (create_body role_name level) w)
       = ResponseValidationError)
  ∧ (DatabaseManager.get_all_roles crud (db w) = (Returned PyNone, d) →
     get_all_roles crud w = (Return PyNone, World d (calls w ++ [GetAllRoles]))
     ∧ fst (get_roles lax_int lax_str crud w) = ResponseValidationError)
  ∧ (∀ role_id,
       DatabaseManager.get_role crud role_id (db w) = (Returned PyNone, d) →
       fst (get_roles_by_id lax_int lax_str crud role_id w)
       = ErrorResponse 404 "Role not found")
  ∧ (∀ role_name,
       DatabaseManager.get_role_by_name crud role_name (db w)
         = (Returned PyNone, d) →
       fst (get_roles_by_name lax_int lax_str crud role_name w)
       = ErrorResponse 404 "Role not found").
Proof.
  split; [|split; [|split]].
  - intros role_name level E.
    pose proof (create_role_returned crud (RoleCreate.Build role_name level)
                  w PyNone d E) as Hc.
    split; [exact Hc|].
    rewrite (post_roles_valid _ _ _ _ _ w
               (RoleCreate_validate_create_body lax_int lax_str
                  role_name level)).
    simpl. by rewrite Hc.
  - intros E.
    pose proof (call_returned crud GetAllRoles w PyNone d E) as Hc.
    split; [exact Hc|].
    rewrite get_roles_eq. simpl. unfold get_all_roles. by rewrite Hc.
  - intros role_id E. rewrite get_roles_by_id_eq. simpl.
    rewrite get_role_found.
    by rewrite (found_returned crud (GetRole role_id) w PyNone d E).
  - intros role_name E. rewrite get_roles_by_name_eq. simpl.
    rewrite get_role_by_name_found.
    by rewrite (found_returned crud (GetRoleByName role_name) w PyNone d E).
Qed.
End Outcomes.

(** ** What goes in and what comes out *)

Section Bodies.
Context {DB : Type}.
Variable lax_int : PyObj -> option Z.
Variable lax_str : PyObj -> option string.
Variable crud : DatabaseManager.t DB.

Lemma RoleCreate_validate_insert_other entries name x :
  name ≠ "role_name" → name ≠ "level" →
  RoleCreate_validate lax_int lax_str (PyDict (<[name := x]> entries))
  = RoleCreate_validate lax_int lax_str (PyDict entries).
Proof.
  intros Hn Hl. unfold RoleCreate_validate.
  by rewrite !lookup_insert_ne.
Qed.

(** X5: a key of the create body other than [role_name] and [level] has no
    effect: the request is answered the same, leaves the same world and
    delegates the same call, whatever the key holds.  In particular an [id]
    sent by the client is never passed to the collaborator. *)
Theorem post_roles_ignores_other_keys entries name x w :
  name ≠ "role_name" → name ≠ "level" →
  post_roles lax_int lax_str crud (PyDict (<[name := x]> entries)) w
  = post_roles lax_int lax_str crud (PyDict entries) w
  ∧ delegated lax_int lax_str (POST_roles (PyDict (<[name := x]> entries)))
    = delegated lax_int lax_str (POST_roles (PyDict entries)).
Proof.
  intros Hn Hl. unfold post_roles, delegated.
  by rewrite (RoleCreate_validate_insert_other entries name x Hn Hl).
Qed.

Lemma serialize_RoleResponse_native v i n l :
  getter v "id" = Some (PyInt i) →
  getter v "role_name" = Some (PyStr n) →
  getter v "level" = Some (PyInt l) →
  serialize_RoleResponse lax_int lax_str v
  = Some (RoleResponse.dict (RoleResponse.Build i n l)).
Proof.
  intros Hi Hn Hl. unfold serialize_RoleResponse, RoleResponse_validate.
  by rewrite Hi, Hn, Hl.
Qed.

(** X6: a value the collaborator returns with an integer [id], a string
    [role_name] and an integer [level] reaches the client with exactly these
    three values: from the create route whenever the create returned it
    (the create does not test its result), from a lookup route whenever the
    lookup returned it and it passes the truth test of [if not role].  The
    response shows the fields of the returned value, not the parameters of
    the request. *)
Theorem responses_show_the_returned_fields v i n l w d :
  getter v "id" = Some (PyInt i) →
  getter v "role_name" = Some (PyStr n) →
  getter v "level" = Some (PyInt l) →
  (∀ body role,
     RoleCreate_validate lax_int lax_str body = Some role →
     DatabaseManager.create_role crud
       (RoleCreate.role_name role) (RoleCreate.level role) (db w)
       = (Returned v, d) →
     fst (post_roles lax_int lax_str crud body w)
     = OK (RoleResponse.dict (RoleResponse.Build i n l)))
  ∧ (∀ role_id,
       DatabaseManager.get_role crud role_id (db w) = (Returned v, d) →
       truthy v = true →
       fst (get_roles_by_id lax_int lax_str crud role_id w)
       = OK (RoleResponse.dict (RoleResponse.Build i n l)))
  ∧ (∀ role_name,
       DatabaseManager.get_role_by_name crud role_name (db w)
         = (Returned v, d) →
       truthy v = true →
       fst (get_roles_by_name lax_int lax_str crud role_name w)
       = OK (RoleResponse.dict (RoleResponse.Build i n l))).
Proof.
  intros Hi Hn Hl.
  pose proof (serialize_RoleResponse_native v i n l Hi Hn Hl) as Hs.
  split; [|split].
  - intros body role Hb E.
    rewrite (post_roles_valid _ _ _ _ _ w Hb).
    rewrite (create_role_returned crud role w v d E). simpl. by rewrite Hs.
  - intros role_id E T. rewrite get_roles_by_id_eq, get_role_found.
    rewrite (found_returned crud (GetRole role_id) w v d E). simpl.
    by rewrite T; simpl; rewrite Hs.
  - intros role_name E T. rewrite get_roles_by_name_eq, get_role_by_name_found.
    rewrite (found_returned crud (GetRoleByName role_name) w v d E). simpl.
    by rewrite T; simpl; rewrite Hs.
Qed.

Lemma RoleResponse_validate_dict r :
  RoleResponse_validate lax_int lax_str (RoleResponse.dict r) = Some r.
Proof.
  destruct r as [i n l].
  assert (getter (RoleResponse.dict (RoleResponse.Build i n l)) "id"
          = Some (PyInt i)) as Hi
    by apply lookup_insert_eq.
  assert (getter (RoleResponse.dict (RoleResponse.Build i n l)) "role_name"
          = Some (PyStr n)) as Hn
    by (simpl; rewrite lookup_insert_ne by done; apply lookup_insert_eq).
  assert (getter (RoleResponse.dict (RoleResponse.Build i n l)) "level"
          = Some (PyInt l)) as Hl
    by (simpl; rewrite !lookup_insert_ne by done; apply lookup_insert_eq).
  unfold RoleResponse_validate. by rewrite Hi, Hn, Hl.
Qed.

(** X7: the response model is a round trip on its own output.  Validating
    the dict of a [RoleResponse] gives the model back, so a response body
    that is returned again (alone, or as the items of a listing) comes out
    unchanged, whatever coercions the schema library has. *)
Theorem response_model_round_trip :
  (∀ r, RoleResponse_validate lax_int lax_str (RoleResponse.dict r) = Some r)
  ∧ (∀ r, serialize_RoleResponse lax_int lax_str (RoleResponse.dict r)
          = Some (RoleResponse.dict r))
  ∧ (∀ rs, serialize_List_RoleResponse lax_int lax_str
             (PyList (map RoleResponse.dict rs))
           = Some (PyList (map RoleResponse.dict rs))).
Proof.
  assert (∀ r, serialize_RoleResponse lax_int lax_str (RoleResponse.dict r)
               = Some (RoleResponse.dict r)) as Hs.
  { intros r. unfold serialize_RoleResponse.
    by rewrite RoleResponse_validate_dict. }
  split; [apply RoleResponse_validate_dict|]. split; [exact Hs|].
  intros rs. simpl.
  assert (mapM (serialize_RoleResponse lax_int lax_str)
            (map RoleResponse.dict rs)
          = Some (map RoleResponse.dict rs)) as ->; [|done].
  apply mapM_Some. induction rs as [|r rs IH]; constructor; [apply Hs|done].
Qed.
End Bodies.

(** ** Serving a sequence of requests *)

Section Serving.
Context {DB : Type}.
Variable path_int : string -> option Z.
Variable lax_int : PyObj -> option Z.
Variable lax_str : PyObj -> option string.
Variable crud : DatabaseManager.t DB.

Lemma role_router_world req w :
  snd (role_router lax_int lax_str crud req w)
  = World (replay crud (delegated lax_int lax_str req) (db w))
          (calls w ++ delegated lax_int lax_str req).
Proof.
  destruct req as [body|role_id|role_name|]; simpl.
  - unfold post_roles.
    destruct (RoleCreate_validate lax_int lax_str body) as [role|] eqn:Eb.
    + pose proof (create_role_world crud role w) as H.
      destruct (create_role crud role w) as [o w']. by simpl in *.
    + simpl. rewrite app_nil_r. by destruct w.
  - rewrite get_roles_by_id_eq, get_role_found.
    exact (found_world crud (GetRole role_id) w).
  - rewrite get_roles_by_name_eq, get_role_by_name_found.
    exact (found_world crud (GetRoleByName role_name) w).
  - rewrite get_roles_eq. exact (call_world crud GetAllRoles w).
Qed.

Lemma dispatch_world r w :
  snd (dispatch path_int lax_int lax_str crud r w)
  = World (replay crud (delegated_http path_int lax_int lax_str r) (db w))
          (calls w ++ delegated_http path_int lax_int lax_str r).
Proof.
  unfold dispatch, delegated_http.
  destruct (path_parameters path_int r) as [req|].
  - apply role_router_world.
  - simpl. rewrite app_nil_r. by destruct w.
Qed.

Lemma dispatch_rejected_iff r w :
  fst (dispatch path_int lax_int lax_str crud r w) = RequestValidationError
  ↔ delegated_http path_int lax_int lax_str r = [].
Proof.
  unfold dispatch, delegated_http.
  destruct r as [body|segment|segment|]; simpl.
  - unfold post_roles.
    destruct (RoleCreate_validate lax_int lax_str body) as [role|]; [|done].
    destruct (create_role crud role w) as [o w']. simpl.
    split; [|done]. intros H.
    by apply respond_not_RequestValidationError in H.
  - destruct (path_int segment) as [role_id|]; simpl; [|done].
    rewrite get_roles_by_id_eq. simpl. split; [|done]. intros H.
    by apply respond_not_RequestValidationError in H.
  - rewrite get_roles_by_name_eq. simpl. split; [|done]. intros H.
    by apply respond_not_RequestValidationError in H.
  - rewrite get_roles_eq. simpl. split; [|done]. intros H.
    by apply respond_not_RequestValidationError in H.
Qed.

Lemma serve_http_cons r rs w :
  serve_http path_int lax_int lax_str crud (r :: rs) w
  = (fst (dispatch path_int lax_int lax_str crud r w)
       :: fst (serve_http path_int lax_int lax_str crud rs
                 (snd (dispatch path_int lax_int lax_str crud r w))),
     snd (serve_http path_int lax_int lax_str crud rs
            (snd (dispatch path_int lax_int lax_str crud r w)))).
Proof.
  simpl. destruct (dispatch path_int lax_int lax_str crud r w) as [a w1].
  simpl. by destruct (serve_http path_int lax_int lax_str crud rs w1).
Qed.

(** X8: requests served one after the other, as they arrive.  The calls
    delegated are those of the requests, in the order of the requests, and
    the database at the end is the one these calls, replayed in that order,
    leave: serving requests does nothing else to it.  A request delegates
    at most one call, and none exactly when it is rejected for its shape (a
    create whose body does not fit the schema, a lookup by id whose path
    segment is no integer); a rejected request leaves the world as it
    was. *)
Theorem requests_delegate_in_order rs w :
  calls (snd (serve_http path_int lax_int lax_str crud rs w))
    = calls w ++ flat_map (delegated_http path_int lax_int lax_str) rs
  ∧ db (snd (serve_http path_int lax_int lax_str crud rs w))
    = replay crud (flat_map (delegated_http path_int lax_int lax_str) rs) (db w)
  ∧ (∀ r, (length (delegated_http path_int lax_int lax_str r) ≤ 1)%nat)
  ∧ (∀ r w0,
       fst (dispatch path_int lax_int lax_str crud r w0)
         = RequestValidationError
       ↔ delegated_http path_int lax_int lax_str r = [])
  ∧ (∀ r w0,
       fst (dispatch path_int lax_int lax_str crud r w0)
         = RequestValidationError →
       dispatch path_int lax_int lax_str crud r w0
       = (RequestValidationError, w0)).
Proof.
  assert (∀ w1,
            calls (snd (serve_http path_int lax_int lax_str crud rs w1))
              = calls w1
                ++ flat_map (delegated_http path_int lax_int lax_str) rs
            ∧ db (snd (serve_http path_int lax_int lax_str crud rs w1))
              = replay crud
                  (flat_map (delegated_http path_int lax_int lax_str) rs)
                  (db w1)) as Hserve.
  { induction rs as [|r rs IH]; intros w1.
    - simpl. by rewrite app_nil_r.
    - rewrite serve_http_cons. simpl.
      destruct (IH (snd (dispatch path_int lax_int lax_str crud r w1)))
        as (Hcalls & Hdb).
      rewrite Hcalls, Hdb, dispatch_world. simpl. split.
      + by rewrite app_assoc.
      + unfold replay. by rewrite fold_left_app. }
  destruct (Hserve w) as [Hcalls Hdb].
  split; [exact Hcalls|]. split; [exact Hdb|]. split; [|split].
  - intros r. unfold delegated_http.
    destruct (path_parameters path_int r) as [[body| | |]|]; simpl; try lia.
    destruct (RoleCreate_validate lax_int lax_str body); simpl; lia.
  - apply dispatch_rejected_iff.
  - intros r w0 H.
    pose proof (dispatch_world r w0) as Hw.
    rewrite (proj1 (dispatch_rejected_iff r w0) H) in Hw.
    simpl in Hw. rewrite app_nil_r in Hw.
    destruct (dispatch path_int lax_int lax_str crud r w0) as [a w1].
    simpl in *. subst. by destruct w0.
Qed.
End Serving.

(** ** The handlers on the in-memory collaborator *)

Module Runs.
Import MemoryDB.

(** C1, as stated, fails on an exception outside [Exception]: the
    collaborator's create raises [KeyboardInterrupt], and [create_role]
    does not answer 400 with its text; the interrupt leaves the handler. *)
Lemma create_role_KeyboardInterrupt_not_bad_request :
  DatabaseManager.create_role crud "admin" 1 interrupted
    = (Raised KeyboardInterrupt, interrupted)
  ∧ fst (create_role crud (RoleCreate.Build "admin" 1) (start interrupted))
    = Raise (Unhandled KeyboardInterrupt)
  ∧ ¬ ∃ cause,
        fst (create_role crud (RoleCreate.Build "admin" 1) (start interrupted))
        = Raise (HTTPException 400 (exc_str KeyboardInterrupt) cause).
Proof.
  split; [reflexivity|]. split; [reflexivity|].
  intros [cause H]. vm_compute in H. discriminate H.
Qed.

(** A lost connection during the create is answered with 400 and the text
    of the error. *)
Lemma create_role_Exception_is_bad_request_witness :
  DatabaseManager.create_role crud "admin" 1 disconnected
    = (Raised ConnectionError, disconnected)
  ∧ exc_is_Exception ConnectionError = true
  ∧ fst (create_role crud (RoleCreate.Build "admin" 1) (start disconnected))
    = Raise (HTTPException 400 "could not connect to server"
               (Some ConnectionError)).
Proof.
  split; [reflexivity|]. split; [reflexivity|].
  exact (proj1 (proj1 (create_role_Exception_is_bad_request crud
                         (RoleCreate.Build "admin" 1) (start disconnected)
                         ConnectionError disconnected eq_refl)
                  eq_refl)).
Defined.

(** On the seeded database the lookup of id 1 returns the entity, the
    lookup of an unknown name is not found. *)
Lemma lookup_not_found_iff_falsy_witness :
  fst (DatabaseManager.get_role crud 1 seeded) = Returned (entity admin)
  ∧ truthy (entity admin) = true
  ∧ fst (get_role crud 1 (start seeded)) = Return (entity admin)
  ∧ fst (DatabaseManager.get_role_by_name crud "nobody" seeded)
    = Returned PyNone
  ∧ fst (get_role_by_name crud "nobody" (start seeded))
    = Raise (HTTPException 404 "Role not found" None).
Proof.
  destruct (lookup_not_found_iff_falsy crud 1 "nobody" (start seeded))
    as [[_ Hid] [Hname _]].
  split; [reflexivity|]. split; [reflexivity|]. split; [|split].
  - apply Hid; reflexivity.
  - reflexivity.
  - apply Hname. exists PyNone. split; reflexivity.
Defined.

(** The first create on the fresh database. *)
Lemma create_role_passes_fields_returns_entity_witness :
  create_role crud (RoleCreate.Build "admin" 1) (start fresh)
    = (Return (entity admin), World seeded [CreateRole "admin" 1])
  ∧ DatabaseManager.create_role crud "admin" 1 fresh
    = (Returned (entity admin), seeded).
Proof.
  assert (create_role crud (RoleCreate.Build "admin" 1) (start fresh)
          = (Return (entity admin), World seeded [CreateRole "admin" 1]))
    as H by reflexivity.
  split; [exact H|].
  exact (proj1 (proj1 (create_role_passes_fields_returns_entity crud
                         (RoleCreate.Build "admin" 1) (start fresh))
                  _ _ H)).
Defined.

(** A lost connection during a lookup and an interrupt during the listing
    leave the handlers as they are. *)
Lemma lookup_and_list_exceptions_propagate_witness :
  DatabaseManager.get_role crud 7 disconnected
    = (Raised ConnectionError, disconnected)
  ∧ get_role crud 7 (start disconnected)
    = (Raise (Unhandled ConnectionError), World disconnected [GetRole 7])
  ∧ DatabaseManager.get_all_roles crud interrupted
    = (Raised KeyboardInterrupt, interrupted)
  ∧ get_all_roles crud (start interrupted)
    = (Raise (Unhandled KeyboardInterrupt), World interrupted [GetAllRoles]).
Proof.
  split; [reflexivity|]. split; [|split; [reflexivity|]].
  - exact (proj1 (lookup_and_list_exceptions_propagate crud
                    (start disconnected) ConnectionError disconnected)
             7 eq_refl).
  - exact (proj1 (proj2 (proj2 (lookup_and_list_exceptions_propagate crud
                                  (start interrupted) KeyboardInterrupt
                                  interrupted)))
             eq_refl).
Defined.

(** C6, as stated, fails on the empty name: the body
    [{"role_name": "", "level": 1}] passes the schema, the create is
    delegated with the empty name, and the client receives the created
    role. *)
Lemma post_roles_accepts_empty_role_name :
  RoleCreate_validate strict_int strict_str (create_body "" 1)
    = Some (RoleCreate.Build "" 1)
  ∧ calls (snd (post_roles strict_int strict_str crud
                  (create_body "" 1) (start fresh)))
    = [CreateRole "" 1]
  ∧ fst (post_roles strict_int strict_str crud
           (create_body "" 1) (start fresh))
    = OK (RoleResponse.dict (RoleResponse.Build 1 "" 1)).
Proof. repeat split; vm_compute; reflexivity. Qed.

(** The empty name is delegated; a body without [role_name] is rejected. *)
Lemma post_roles_schema_requires_presence_only_witness :
  (<["role_name" := PyStr ""]> (<["level" := PyInt 1]> ∅) : gmap string PyObj)
    !! "role_name" = Some (PyStr "")
  ∧ (<["role_name" := PyStr ""]> (<["level" := PyInt 1]> ∅) : gmap string PyObj)
      !! "level" = Some (PyInt 1)
  ∧ calls (snd (post_roles strict_int strict_str crud
                  (create_body "" 1) (start fresh)))
    = [CreateRole "" 1]
  ∧ (<["level" := PyInt 1]> ∅ : gmap string PyObj) !! "role_name" = None
  ∧ post_roles strict_int strict_str crud
      (PyDict (<["level" := PyInt 1]> ∅)) (start fresh)
    = (RequestValidationError, start fresh).
Proof.
  split; [reflexivity|]. split; [reflexivity|]. split; [|split; [reflexivity|]].
  - exact (proj2 (proj1 (post_roles_schema_requires_presence_only
                           strict_int strict_str crud
                           (start fresh))
                    (<["role_name" := PyStr ""]> (<["level" := PyInt 1]> ∅))
                    "" 1 eq_refl eq_refl)).
  - exact (proj2 (proj2 (post_roles_schema_requires_presence_only
                           strict_int strict_str crud
                           (start fresh)))
             (<["level" := PyInt 1]> ∅) eq_refl).
Defined.

(** The listing of the seeded database, and of the fresh one. *)
Lemma get_all_roles_returns_collaborator_sequence_witness :
  DatabaseManager.get_all_roles crud seeded
    = (Returned (PyList [entity admin]), seeded)
  ∧ get_all_roles crud (start seeded)
    = (Return (PyList [entity admin]),
       World seeded [GetAllRoles])
  ∧ DatabaseManager.get_all_roles crud fresh
    = (Returned (PyList []), fresh)
  ∧ fst (get_roles strict_int strict_str crud
           (start fresh))
    = OK (PyList []).
Proof.
  split; [reflexivity|]. split; [|split; [reflexivity|]].
  - exact (proj1 (get_all_roles_returns_collaborator_sequence
                    strict_int strict_str crud
                    (start seeded))
             _ _ eq_refl).
  - exact (proj2 (proj2 (get_all_roles_returns_collaborator_sequence
                           strict_int strict_str crud
                           (start fresh)))
             _ eq_refl).
Defined.

(** The entity of the seeded database carries the mapper's attribute; the
    response has the three fields only. *)
Lemma responses_carry_exactly_the_role_fields_witness :
  fst (get_roles_by_id strict_int strict_str crud 1
         (start seeded))
    = OK (RoleResponse.dict (RoleResponse.Build 1 "admin" 1))
  ∧ role_body (RoleResponse.dict (RoleResponse.Build 1 "admin" 1))
  ∧ ("_sa_instance_state" ∉ role_fields)
  ∧ serialize_RoleResponse strict_int strict_str
      (entity admin)
    = serialize_RoleResponse strict_int strict_str
        (PyInstance "RoleHierarchy"
           (<["id" := PyInt 1]>
            (<["role_name" := PyStr "admin"]> (<["level" := PyInt 1]> ∅)))).
Proof.
  assert (fst (get_roles_by_id strict_int strict_str
                 crud 1 (start seeded))
          = OK (RoleResponse.dict (RoleResponse.Build 1 "admin" 1))) as H
    by (vm_compute; reflexivity).
  split; [exact H|]. split; [|split].
  - exact (proj1 (responses_carry_exactly_the_role_fields
                    strict_int strict_str crud)
             PyNone 1 "" (start seeded) _
             (or_intror (or_introl H))).
  - vm_compute. intros H'. discriminate H'.
  - refine (proj1 (proj2 (proj2 (responses_carry_exactly_the_role_fields
                                   strict_int strict_str
                                   crud)))
              "RoleHierarchy"
              (<["id" := PyInt 1]>
               (<["role_name" := PyStr "admin"]> (<["level" := PyInt 1]> ∅)))
              "_sa_instance_state" PyNone _).
    vm_compute. intros H'. discriminate H'.
Defined.

(** Create "admin" on the fresh database, then fetch it by the returned
    id. *)
Lemma create_then_get_round_trip_witness :
  stores_what_it_is_given crud "admin" 1 fresh
  ∧ post_roles strict_int strict_str crud
      (create_body "admin" 1) (start fresh)
    = (OK (RoleResponse.dict (RoleResponse.Build 1 "admin" 1)),
       World seeded [CreateRole "admin" 1])
  ∧ ∃ i,
      getter (RoleResponse.dict (RoleResponse.Build 1 "admin" 1)) "id"
        = Some (PyInt i)
      ∧ fst (get_roles_by_id strict_int strict_str
               crud i (World seeded [CreateRole "admin" 1]))
        = OK (RoleResponse.dict (RoleResponse.Build i "admin" 1)).
Proof.
  assert (stores_what_it_is_given crud "admin" 1 fresh)
    as Hstore.
  { intros v d' H. injection H as <- <-.
    exists 1, (entity admin), seeded.
    repeat split; vm_compute; reflexivity. }
  assert (post_roles strict_int strict_str crud
            (create_body "admin" 1) (start fresh)
          = (OK (RoleResponse.dict (RoleResponse.Build 1 "admin" 1)),
             World seeded [CreateRole "admin" 1])) as Hpost
    by (vm_compute; reflexivity).
  split; [exact Hstore|]. split; [exact Hpost|].
  exact (proj2 (create_then_get_round_trip
                  strict_int strict_str crud
                  "admin" 1 (start fresh) Hstore)
           _ _ Hpost).
Defined.

(** A negative level and the level zero are created as they are. *)
Lemma create_role_forwards_any_level_witness :
  create_role crud (RoleCreate.Build "guest" (-3)) (start fresh)
    = (Return (entity (Row 1 "guest" (-3))),
       World (Build [Row 1 "guest" (-3)] None) [CreateRole "guest" (-3)])
  ∧ post_roles strict_int strict_str crud
      (create_body "nobody" 0) (start seeded)
    = (OK (RoleResponse.dict (RoleResponse.Build 2 "nobody" 0)),
       World (Build [admin; Row 2 "nobody" 0] None) [CreateRole "nobody" 0]).
Proof.
  split.
  - exact (proj1 (proj2 (create_role_forwards_any_level
                           strict_int strict_str crud "guest" (-3)
                           (start fresh)))).
  - refine (eq_trans
              (proj1 (proj2 (proj2 (create_role_forwards_any_level
                                      strict_int strict_str crud "nobody" 0
                                      (start seeded)))))
              _).
    vm_compute. reflexivity.
Defined.
End Runs.

(** ** More runs on concrete collaborators *)

Module MoreRuns.
Import MemoryDB.

(** The 400 of a create on a lost connection points back to the error the
    collaborator raised. *)
Lemma create_role_failure_inv_witness :
  fst (create_role crud (RoleCreate.Build "admin" 1) (start disconnected))
    = Raise (HTTPException 400 "could not connect to server"
               (Some ConnectionError))
  ∧ ∃ e,
      fst (DatabaseManager.create_role crud "admin" 1 disconnected) = Raised e
      ∧ exc_is_Exception e = true
      ∧ 400 = 400
      ∧ "could not connect to server" = exc_str e
      ∧ Some ConnectionError = Some e.
Proof.
  assert (fst (create_role crud (RoleCreate.Build "admin" 1)
                 (start disconnected))
          = Raise (HTTPException 400 "could not connect to server"
                     (Some ConnectionError))) as H
    by reflexivity.
  split; [exact H|].
  exact (proj1 (create_role_failure_inv crud (RoleCreate.Build "admin" 1)
                  (start disconnected))
           _ _ _ H).
Defined.



(** On the collaborator that returns [None] everywhere, the create fails
    the response model and the lookup is not found. *)
Lemma None_from_the_collaborator_witness :
  DatabaseManager.create_role NullDB.crud "admin" 1 tt = (Returned PyNone, tt)
  ∧ fst (post_roles strict_int strict_str NullDB.crud
           (create_body "admin" 1) NullDB.start)
    = ResponseValidationError
  ∧ DatabaseManager.get_role NullDB.crud 1 tt = (Returned PyNone, tt)
  ∧ fst (get_roles_by_id strict_int strict_str NullDB.crud 1 NullDB.start)
    = ErrorResponse 404 "Role not found".
Proof.
  split; [reflexivity|]. split; [|split; [reflexivity|]].
  - exact (proj2 (proj1 (None_from_the_collaborator strict_int strict_str
                           NullDB.crud NullDB.start tt)
                    "admin" 1 eq_refl)).
  - exact (proj1 (proj2 (proj2 (None_from_the_collaborator
                                  strict_int strict_str NullDB.crud
                                  NullDB.start tt)))
             1 eq_refl).
Defined.

(** An [id] in the create body changes nothing. *)
Lemma post_roles_ignores_other_keys_witness :
  "id" ≠ "role_name" ∧ "id" ≠ "level"
  ∧ post_roles strict_int strict_str crud
      (PyDict (<["id" := PyInt 99]>
               (<["role_name" := PyStr "admin"]> (<["level" := PyInt 1]> ∅))))
      (start fresh)
    = post_roles strict_int strict_str crud
        (PyDict (<["role_name" := PyStr "admin"]> (<["level" := PyInt 1]> ∅)))
        (start fresh).
Proof.
  assert ("id" ≠ "role_name") as Hn by discriminate.
  assert ("id" ≠ "level") as Hl by discriminate.
  split; [exact Hn|]. split; [exact Hl|].
  exact (proj1 (post_roles_ignores_other_keys strict_int strict_str crud
                  (<["role_name" := PyStr "admin"]> (<["level" := PyInt 1]> ∅))
                  "id" (PyInt 99) (start fresh) Hn Hl)).
Defined.

(** The entity of the seeded database reaches the client with its three
    fields. *)
Lemma responses_show_the_returned_fields_witness :
  getter (entity admin) "id" = Some (PyInt 1)
  ∧ getter (entity admin) "role_name" = Some (PyStr "admin")
  ∧ getter (entity admin) "level" = Some (PyInt 1)
  ∧ DatabaseManager.get_role crud 1 seeded = (Returned (entity admin), seeded)
  ∧ truthy (entity admin) = true
  ∧ fst (get_roles_by_id strict_int strict_str crud 1 (start seeded))
    = OK (RoleResponse.dict (RoleResponse.Build 1 "admin" 1)).
Proof.
  assert (getter (entity admin) "id" = Some (PyInt 1)) as Hi
    by (vm_compute; reflexivity).
  assert (getter (entity admin) "role_name" = Some (PyStr "admin")) as Hn
    by (vm_compute; reflexivity).
  assert (getter (entity admin) "level" = Some (PyInt 1)) as Hl
    by (vm_compute; reflexivity).
  split; [exact Hi|]. split; [exact Hn|]. split; [exact Hl|].
  split; [reflexivity|]. split; [reflexivity|].
  exact (proj1 (proj2 (responses_show_the_returned_fields
                         strict_int strict_str crud
                         (entity admin) 1 "admin" 1 (start seeded) seeded
                         Hi Hn Hl))
           1 eq_refl eq_refl).
Defined.

(** Four requests on the fresh database: a lookup by a segment that is no
    integer and a create without fields are rejected and change nothing; the
    create of "admin" and the lookup of id 1 are delegated, in that order. *)
Lemma requests_delegate_in_order_witness :
  fst (dispatch DecimalPath.path_int strict_int strict_str crud
         (Http_GET_roles_id "abc") (start fresh))
    = RequestValidationError
  ∧ dispatch DecimalPath.path_int strict_int strict_str crud
      (Http_GET_roles_id "abc") (start fresh)
    = (RequestValidationError, start fresh)
  ∧ calls (snd (serve_http DecimalPath.path_int strict_int strict_str crud
                  [Http_GET_roles_id "abc"; Http_POST_roles (PyDict ∅);
                   Http_POST_roles (create_body "admin" 1);
                   Http_GET_roles_id "1"]
                  (start fresh)))
    = [CreateRole "admin" 1; GetRole 1]
  ∧ fst (serve_http DecimalPath.path_int strict_int strict_str crud
           [Http_GET_roles_id "abc"; Http_POST_roles (PyDict ∅);
            Http_POST_roles (create_body "admin" 1);
            Http_GET_roles_id "1"]
           (start fresh))
    = [RequestValidationError; RequestValidationError;
       OK (RoleResponse.dict (RoleResponse.Build 1 "admin" 1));
       OK (RoleResponse.dict (RoleResponse.Build 1 "admin" 1))].
Proof.
  assert (fst (dispatch DecimalPath.path_int strict_int strict_str crud
                 (Http_GET_roles_id "abc") (start fresh))
          = RequestValidationError) as H
    by reflexivity.
  split; [exact H|]. split; [|split].
  - exact (proj2 (proj2 (proj2 (proj2
             (requests_delegate_in_order DecimalPath.path_int strict_int
                strict_str crud [] (start fresh)))))
             (Http_GET_roles_id "abc") (start fresh) H).
  - refine (eq_trans
              (proj1 (requests_delegate_in_order DecimalPath.path_int strict_int
                        strict_str crud
                        [Http_GET_roles_id "abc"; Http_POST_roles (PyDict ∅);
                         Http_POST_roles (create_body "admin" 1);
                         Http_GET_roles_id "1"]
                        (start fresh)))
              _).
    vm_compute. reflexivity.
  - vm_compute. reflexivity.
Defined.
End MoreRuns.
